(** * GlobalStateManager: the server registry and its sessions

    A shallow embedding of [src/utils/globalStateManager.ts].

    The class keeps one blob, the server registry, in the editor's key-value
    store ([context.globalState]) and mediates every remote operation through
    the session recorded there.  The embedding makes the three kinds of effect
    of the code explicit in a [World]:
      - the key-value store, read with [get] and written with [update];
      - the remote service behind the [BaseAPI] object, whose replies are not
        determined by this file and are therefore left arbitrary;
      - the chronological [trace] of what the code did to its collaborators
        (remote calls, store writes, error messages shown to the user).

    Modelling notes.
      - [ServerPersistMap] is a plain JS object used as a dictionary; its own
        properties are a [gmap string ServerPersist].  [persists[name]] also
        finds the members every plain object inherits from [Object.prototype]
        ([member] below).  The built-in objects found that way are taken as
        the language provides them: none carries a [login] member when a
        method starts.  A [login] member that the code puts on one is recorded
        in the trace; what later calls would read from it is outside the
        model.
      - [persists] is read once at the head of every method and every local
        mutation of it is followed at once by [update] of the whole blob, so the
        local object is modelled by value.
      - Each [await] is a sequencing point of the [Async] monad; interleaving
        of several pending operations is not modelled.
      - Every [BaseAPI] method settles with a [ResponseSchema]; a method whose
        promise is rejected is not modelled.
      - A property read on [undefined] ([server.login] when [persists[name]]
        is [undefined]) raises [TypeError]; inside an [async] method this is
        the rejection of the returned promise. *)

From Stdlib Require Import Init.Byte.
From stdpp Require Import base option strings list gmap.

Set Default Proof Using "Type".

(** ** Types declared outside this file

    [Identity], [MemberEntity], the entity and compiler payloads of
    [ResponseSchema] and the numbers handed to the sync proxies are imported
    by the source from [../api/base] and [../provider/remoteFileSystemProvider];
    the code only stores them and passes them on.  [Remote] is the state of
    the remote service. *)
Class Externals := {
  Identity : Type;
  MemberEntity : Type;
  Entity : Type;
  CompileOutput : Type;
  SyncCodeOutput : Type;
  SyncPdfOutput : Type;
  Number : Type;
  Remote : Type;
}.

Definition keyServerPersists : string := "overleaf-servers".

(** ['owner' | 'collaborator' | 'readOnly'] *)
Inductive AccessLevel := owner | collaborator | readOnly.

(** [FileType] and the [entityType] arguments are strings in the source. *)
Definition FileType := string.

Section Model.
Context `{Ext : Externals}.

(** ** Data model (interfaces [ProjectPersist] and [ServerPersist]) *)

Record ProjectPersist := {
  p_id : string;
  p_userId : string;
  p_name : string;
  p_lastUpdated : option string;
  p_lastUpdatedBy : option MemberEntity;
  p_source : option AccessLevel;
  p_accessLevel : AccessLevel;
  p_archived : option bool;
  p_trashed : option bool;
}.

(** The [login] member of [ServerPersist].  [username] receives [auth.email],
    which is [undefined] when the caller's dictionary has no such key. *)
Record Login := {
  l_userId : string;
  l_username : option string;
  l_identity : Identity;
  l_projects : option (list ProjectPersist);
}.

Record ServerPersist := {
  s_name : string;
  s_url : string;
  s_login : option Login;
}.

Abbreviation ServerPersistMap := (gmap string ServerPersist).

(** [ResponseSchema] with the members this file reads. *)
Record ResponseSchema := {
  r_type : string;
  r_message : option string;
  r_identity : option Identity;
  r_projects : option (list ProjectPersist);
  r_content : option (list byte);
  r_entity : option Entity;
  r_compile : option CompileOutput;
  r_syncCode : option SyncCodeOutput;
  r_syncPdf : option SyncPdfOutput;
}.

(** ** The remote client *)

(** One constructor per [BaseAPI] method this file invokes, with the
    arguments it is given. *)
Inductive ApiCall :=
| cookiesLogin (cookies : string)
| passportLogin (email password : option string)
| logout (identity : Identity)
| getProjectsJson (identity : Identity)
| userProjectsJson (identity : Identity)
| getFile (identity : Identity) (projectId fileId : string)
| uploadFile (identity : Identity) (projectId parentFolderId fileName : string)
             (content : list byte)
| addFolder (identity : Identity) (projectId folderName parentFolderId : string)
| deleteEntity (identity : Identity) (projectId : string) (fileType : FileType)
               (fileId : string)
| renameEntity (identity : Identity) (projectId entityType entityId newName : string)
| moveEntity (identity : Identity) (projectId entityType entityId newParentId : string)
| deleteAuxFiles (identity : Identity) (projectId : string)
| compile (identity : Identity) (projectId : string)
| proxySyncCode (identity : Identity) (projectId filePath : string) (line column : Number)
| proxySyncPdf (identity : Identity) (projectId : string) (page h v : Number).

(** The [api] object: every method answers with a [ResponseSchema] and may
    change the remote service. *)
Definition BaseAPI := ApiCall → Remote → ResponseSchema * Remote.

(** [new BaseAPI(url)] and [new SocketIOAPI(url, api, identity)]: the handles
    are known by what they were constructed from. *)
Record ApiHandle := { base_url : string }.
Record SocketIOAPI := {
  sock_url : string;
  sock_api : ApiHandle;
  sock_identity : Identity;
}.

(** ** Effects *)

Inductive Event :=
| Call (c : ApiCall)
| Update (persists : ServerPersistMap)
| ShowErrorMessage (msg : string)
| BuiltInLogin (name : string) (login : option Login).
  (* the [login] member of the built-in object [persists[name]] was set *)

Record World := {
  globalState : gmap string ServerPersistMap;
  remote : Remote;
  trace : list Event;
}.

Inductive Exception :=
| TypeError
| Rejected.  (* [Promise.reject()] without a reason *)

Inductive Outcome (A : Type) :=
| Returned (a : A)
| Thrown (e : Exception).
Global Arguments Returned {A} a.
Global Arguments Thrown {A} e.

Definition Async (A : Type) : Type := World → Outcome A * World.

Definition ret {A} (a : A) : Async A := λ w, (Returned a, w).

Definition throw {A} (e : Exception) : Async A := λ w, (Thrown e, w).

Definition bind {A B} (m : Async A) (k : A → Async B) : Async B :=
  λ w, match m w with
       | (Returned a, w') => k a w'
       | (Thrown e, w') => (Thrown e, w')
       end.

(** [x ← m; k] and [m;; k] below are [bind]. *)
#[global] Instance Async_ret : MRet Async := @ret.
#[global] Instance Async_bind : MBind Async := λ A B k m, bind m k.

(** [context.globalState.get<ServerPersistMap>(keyServerPersists, {})] *)
Definition registry (w : World) : ServerPersistMap :=
  default ∅ (globalState w !! keyServerPersists).

Definition get : Async ServerPersistMap := λ w, (Returned (registry w), w).

(** [context.globalState.update(keyServerPersists, persists)] *)
Definition update (persists : ServerPersistMap) : Async unit :=
  λ w, (Returned tt,
        {| globalState := <[keyServerPersists := persists]> (globalState w);
           remote := remote w;
           trace := trace w ++ [Update persists] |}).

(** [await api.method(args)] *)
Definition call (api : BaseAPI) (c : ApiCall) : Async ResponseSchema :=
  λ w, let '(res, rem) := api c (remote w) in
       (Returned res,
        {| globalState := globalState w;
           remote := rem;
           trace := trace w ++ [Call c] |}).

(** [vscode.window.showErrorMessage(msg)] *)
Definition showErrorMessage (msg : string) : Async unit :=
  λ w, (Returned tt,
        {| globalState := globalState w;
           remote := remote w;
           trace := trace w ++ [ShowErrorMessage msg] |}).

(** The names of the members of [Object.prototype], which every plain object
    inherits. *)
Definition inherited : list string :=
  [ "constructor"; "toString"; "toLocaleString"; "valueOf"; "hasOwnProperty";
    "isPrototypeOf"; "propertyIsEnumerable"; "__proto__"; "__defineGetter__";
    "__defineSetter__"; "__lookupGetter__"; "__lookupSetter__" ].

(** What [persists[name]] evaluates to when it is not [undefined]: a server
    entry, or one of the built-in objects of the language. *)
Inductive Holder :=
| Entry (server : ServerPersist)
| BuiltIn.

(** [persists[name]]: an own property first, then an inherited member,
    otherwise [undefined]. *)
Definition member (persists : ServerPersistMap) (name : string) : option Holder :=
  match persists !! name with
  | Some server => Some (Entry server)
  | None => if bool_decide (name ∈ inherited) then Some BuiltIn else None
  end.

(** [server.login]; a built-in object has no such member. *)
Definition loginOf (server : Holder) : option Login :=
  match server with
  | Entry server => s_login server
  | BuiltIn => None
  end.

(** Reading a property of [persists[name]]: a [TypeError] when it is
    [undefined]. *)
Definition deref {A} (o : option A) : Async A :=
  match o with
  | Some a => ret a
  | None => throw TypeError
  end.

(** [if (res.message!==undefined) { vscode.window.showErrorMessage(res.message); }] *)
Definition showMessageOf (res : ResponseSchema) : Async unit :=
  match r_message res with
  | Some msg => showErrorMessage msg
  | None => ret tt
  end.

(** [res.type==='success'] *)
Definition isSuccess (res : ResponseSchema) : bool :=
  bool_decide (r_type res = "success").

(** Truthiness of an optional string: defined and not empty. *)
Definition truthy (o : option string) : bool :=
  match o with
  | Some s => negb (bool_decide (s = ""))
  | None => false
  end.

(** ** Server registry *)

Definition getServers : Async (list (ServerPersist * ApiHandle)) :=
  persists ← get;
  ret ((λ persist, (persist, {| base_url := s_url persist |}))
         <$> (snd <$> map_to_list persists)).

Definition addServer (name url : string) : Async bool :=
  persists ← get;
  match member persists name with
  | None =>
      let persists := <[name := {| s_name := name; s_url := url; s_login := None |}]> persists in
      update persists;;
      ret true
  | Some _ => ret false
  end.

Definition removeServer (name : string) : Async bool :=
  persists ← get;
  match member persists name with
  | Some _ =>
      (* [delete persists[name]] removes own properties only *)
      let persists := delete name persists in
      update persists;;
      ret true
  | None => ret false
  end.

(** ** Session manager *)

(** [server.login = v] on the entry held under [name]. *)
Definition setLogin (name : string) (server : ServerPersist) (v : option Login)
    (persists : ServerPersistMap) : ServerPersistMap :=
  <[name := {| s_name := s_name server; s_url := s_url server; s_login := v |}]> persists.

(** [server.login = v] and [delete server.login]: on an entry they change the
    registry; on a built-in object they change that object, of which
    [persists] holds nothing. *)
Definition assignLogin (name : string) (server : Holder) (v : option Login)
    (persists : ServerPersistMap) : Async ServerPersistMap :=
  match server with
  | Entry server => ret (setLogin name server v persists)
  | BuiltIn =>
      λ w, (Returned persists,
            {| globalState := globalState w;
               remote := remote w;
               trace := trace w ++ [BuiltInLogin name v] |})
  end.

(** The remote call chosen by
    [auth.cookies ? api.cookiesLogin(auth.cookies)
                  : api.passportLogin(auth.email, auth.password)]. *)
Definition loginCall (auth : gmap string string) : ApiCall :=
  match auth !! "cookies" with
  | Some cookies =>
      if truthy (Some cookies) then cookiesLogin cookies
      else passportLogin (auth !! "email") (auth !! "password")
  | None => passportLogin (auth !! "email") (auth !! "password")
  end.

Definition loginServer (api : BaseAPI) (name : string) (auth : gmap string string)
    : Async bool :=
  persists ← get;
  server ← deref (member persists name);
  match loginOf server with
  | None =>
      res ← call api (loginCall auth);
      match isSuccess res, r_identity res, r_message res with
      | true, Some ident, Some message =>
          persists ← assignLogin name server
                       (Some {| l_userId := message;
                                l_username := auth !! "email";
                                l_identity := ident;
                                l_projects := None |}) persists;
          update persists;;
          ret true
      | _, _, _ =>
          showMessageOf res;;
          ret false
      end
  | Some _ => ret false
  end.

Definition logoutServer (api : BaseAPI) (name : string) : Async bool :=
  persists ← get;
  server ← deref (member persists name);
  match loginOf server with
  | Some login =>
      call api (logout (l_identity login));;
      persists ← assignLogin name server None persists;
      update persists;;
      ret true
  | None => ret false
  end.

(** What [authenticate] returns: a settled promise. *)
Inductive Promise (A : Type) :=
| Resolve (a : A)
| Reject.
Global Arguments Resolve {A} a.
Global Arguments Reject {A}.

Definition await {A} (p : Promise A) : Async A :=
  match p with
  | Resolve a => ret a
  | Reject => throw Rejected
  end.

Definition authenticate (name : string) : Async (Promise Identity) :=
  persists ← get;
  server ← deref (member persists name);
  match loginOf server with
  | Some login => ret (Resolve (l_identity login))
  | None => ret Reject
  end.

(** ** Project catalog *)

(** [project.userId = userId] *)
Definition setUserId (userId : string) (project : ProjectPersist) : ProjectPersist :=
  {| p_id := p_id project;
     p_userId := userId;
     p_name := p_name project;
     p_lastUpdated := p_lastUpdated project;
     p_lastUpdatedBy := p_lastUpdatedBy project;
     p_source := p_source project;
     p_accessLevel := p_accessLevel project;
     p_archived := p_archived project;
     p_trashed := p_trashed project |}.

(** [server.login.projects = projects] *)
Definition setProjects (projects : list ProjectPersist) (login : Login) : Login :=
  {| l_userId := l_userId login;
     l_username := l_username login;
     l_identity := l_identity login;
     l_projects := Some projects |}.

Definition fetchServerProjects (api : BaseAPI) (name : string)
    : Async (list ProjectPersist) :=
  persists ← get;
  server ← deref (member persists name);
  match loginOf server with
  | Some login =>
      res ← call api (getProjectsJson (l_identity login));
      res ← (if negb (isSuccess res)
             then call api (userProjectsJson (l_identity login))
             else ret res);
      match isSuccess res, r_projects res with
      | true, Some projects =>
          let projects := setUserId (l_userId login) <$> projects in
          persists ← assignLogin name server (Some (setProjects projects login))
                       persists;
          update persists;;
          ret projects
      | _, _ =>
          showMessageOf res;;
          ret []
      end
  | None => ret []
  end.

(** ** File access and entity operations *)

Definition getProjectFile (api : BaseAPI) (name projectId fileId : string)
    : Async (list byte) :=
  persists ← get;
  server ← deref (member persists name);
  match loginOf server with
  | Some login =>
      res ← call api (getFile (l_identity login) projectId fileId);
      match isSuccess res, r_content res with
      | true, Some content => ret content
      | _, _ => ret []   (* [new Uint8Array(0)] *)
      end
  | None => ret []
  end.

(** The value of an [async] body that ends without [return] is [undefined],
    here [None]. *)
Definition uploadProjectFile (api : BaseAPI)
    (name projectId parentFolderId fileName : string) (content : list byte)
    : Async (option Entity) :=
  persists ← get;
  server ← deref (member persists name);
  match loginOf server with
  | Some login =>
      res ← call api (uploadFile (l_identity login) projectId parentFolderId
                                 fileName content);
      match isSuccess res, r_entity res with
      | true, Some entity => ret (Some entity)
      | _, _ =>
          showMessageOf res;;
          ret None
      end
  | None => ret None
  end.

Definition addProjectFolder (api : BaseAPI)
    (name projectId folderName parentFolderId : string) : Async (option Entity) :=
  persists ← get;
  server ← deref (member persists name);
  match loginOf server with
  | Some login =>
      res ← call api (addFolder (l_identity login) projectId folderName
                                parentFolderId);
      match isSuccess res, r_entity res with
      | true, Some entity => ret (Some entity)
      | _, _ =>
          showMessageOf res;;
          ret None
      end
  | None => ret None
  end.

Definition deleteProjectEntity (api : BaseAPI) (name projectId : string)
    (fileType : FileType) (fileId : string) : Async bool :=
  persists ← get;
  server ← deref (member persists name);
  match loginOf server with
  | Some login =>
      res ← call api (deleteEntity (l_identity login) projectId fileType fileId);
      if isSuccess res then ret true
      else (showMessageOf res;; ret false)
  | None => ret false
  end.

Definition renameProjectEntity (api : BaseAPI)
    (name projectId entityType entityId newName : string) : Async bool :=
  persists ← get;
  server ← deref (member persists name);
  match loginOf server with
  | Some login =>
      res ← call api (renameEntity (l_identity login) projectId entityType
                                   entityId newName);
      if isSuccess res then ret true
      else (showMessageOf res;; ret false)
  | None => ret false
  end.

Definition moveProjectEntity (api : BaseAPI)
    (name projectId entityType entityId newParentId : string) : Async bool :=
  persists ← get;
  server ← deref (member persists name);
  match loginOf server with
  | Some login =>
      res ← call api (moveEntity (l_identity login) projectId entityType
                                 entityId newParentId);
      if isSuccess res then ret true
      else (showMessageOf res;; ret false)
  | None => ret false
  end.

(** ** Compile service and sync bridge *)

Definition compileProjectEntity (api : BaseAPI) (name projectId : string)
    (needCacheClearFirst : bool) : Async (option CompileOutput) :=
  persists ← get;
  server ← deref (member persists name);
  match loginOf server with
  | Some login =>
      (if needCacheClearFirst
       then (call api (deleteAuxFiles (l_identity login) projectId);; ret tt)
       else ret tt);;
      res ← call api (compile (l_identity login) projectId);
      if isSuccess res then ret (r_compile res)
      else (showMessageOf res;; ret None)
  | None => ret None
  end.

Definition syncCode (api : BaseAPI) (name projectId filePath : string)
    (line column : Number) : Async (option SyncCodeOutput) :=
  promise ← authenticate name;
  ident ← await promise;
  res ← call api (proxySyncCode ident projectId filePath line column);
  if isSuccess res then ret (r_syncCode res)
  else (showMessageOf res;; ret None).

Definition syncPdf (api : BaseAPI) (name projectId : string) (page h v : Number)
    : Async (option SyncPdfOutput) :=
  promise ← authenticate name;
  ident ← await promise;
  res ← call api (proxySyncPdf ident projectId page h v);
  if isSuccess res then ret (r_syncPdf res)
  else (showMessageOf res;; ret None).

(** ** Socket session factory *)

Definition initSocketIOAPI (name : string) : Async (option (ApiHandle * SocketIOAPI)) :=
  persists ← get;
  server ← deref (member persists name);
  match server, loginOf server with
  | Entry server, Some login =>
      let api := {| base_url := s_url server |} in
      let socket := {| sock_url := s_url server;
                       sock_api := api;
                       sock_identity := l_identity login |} in
      ret (Some (api, socket))
  | _, _ => ret None
  end.

(** ** Reading the trace *)

(** The remote calls of a trace, in the order they were issued. *)
Definition calls (t : list Event) : list ApiCall :=
  omap (λ e, match e with Call c => Some c | _ => None end) t.

(** The messages shown to the user, in order. *)
Definition shown (t : list Event) : list string :=
  omap (λ e, match e with ShowErrorMessage m => Some m | _ => None end) t.

(** The blobs written to the store, in order. *)
Definition writes (t : list Event) : list ServerPersistMap :=
  omap (λ e, match e with Update m => Some m | _ => None end) t.

(** A server entry is logged in when it carries a [login] member. *)
Definition loggedIn (w : World) (name : string) (login : Login) : Prop :=
  ∃ server, registry w !! name = Some server ∧ s_login server = Some login.

Definition loggedOut (w : World) (name : string) : Prop :=
  ∃ server, registry w !! name = Some server ∧ s_login server = None.

End Model.

(** ** The public methods as requests

    To speak of every method of the class at once, and of sequences of calls,
    a [Request] names one static method together with the arguments it is
    called with, and [perform] runs it and keeps the world it leaves (whether
    it returned or threw). *)
Section Requests.
Context `{Ext : Externals}.

Inductive Request :=
| GetServers
| AddServer (name url : string)
| RemoveServer (name : string)
| LoginServer (api : BaseAPI) (name : string) (auth : gmap string string)
| LogoutServer (api : BaseAPI) (name : string)
| FetchServerProjects (api : BaseAPI) (name : string)
| Authenticate (name : string)
| GetProjectFile (api : BaseAPI) (name projectId fileId : string)
| UploadProjectFile (api : BaseAPI) (name projectId parentFolderId fileName : string)
                    (content : list byte)
| AddProjectFolder (api : BaseAPI) (name projectId folderName parentFolderId : string)
| DeleteProjectEntity (api : BaseAPI) (name projectId : string) (fileType : FileType)
                      (fileId : string)
| RenameProjectEntity (api : BaseAPI) (name projectId entityType entityId newName : string)
| MoveProjectEntity (api : BaseAPI) (name projectId entityType entityId newParentId : string)
| CompileProjectEntity (api : BaseAPI) (name projectId : string)
                       (needCacheClearFirst : bool)
| SyncCode (api : BaseAPI) (name projectId filePath : string) (line column : Number)
| SyncPdf (api : BaseAPI) (name projectId : string) (page h v : Number)
| InitSocketIOAPI (name : string).

Definition perform (r : Request) (w : World) : World :=
  match r with
  | GetServers => snd (getServers w)
  | AddServer name url => snd (addServer name url w)
  | RemoveServer name => snd (removeServer name w)
  | LoginServer api name auth => snd (loginServer api name auth w)
  | LogoutServer api name => snd (logoutServer api name w)
  | FetchServerProjects api name => snd (fetchServerProjects api name w)
  | Authenticate name => snd (authenticate name w)
  | GetProjectFile api name projectId fileId =>
      snd (getProjectFile api name projectId fileId w)
  | UploadProjectFile api name projectId parentFolderId fileName content =>
      snd (uploadProjectFile api name projectId parentFolderId fileName content w)
  | AddProjectFolder api name projectId folderName parentFolderId =>
      snd (addProjectFolder api name projectId folderName parentFolderId w)
  | DeleteProjectEntity api name projectId fileType fileId =>
      snd (deleteProjectEntity api name projectId fileType fileId w)
  | RenameProjectEntity api name projectId entityType entityId newName =>
      snd (renameProjectEntity api name projectId entityType entityId newName w)
  | MoveProjectEntity api name projectId entityType entityId newParentId =>
      snd (moveProjectEntity api name projectId entityType entityId newParentId w)
  | CompileProjectEntity api name projectId needCacheClearFirst =>
      snd (compileProjectEntity api name projectId needCacheClearFirst w)
  | SyncCode api name projectId filePath line column =>
      snd (syncCode api name projectId filePath line column w)
  | SyncPdf api name projectId page h v =>
      snd (syncPdf api name projectId page h v w)
  | InitSocketIOAPI name => snd (initSocketIOAPI name w)
  end.

(** The requests of a list, performed one after the other. *)
Definition performAll (rs : list Request) (w : World) : World :=
  foldl (λ w r, perform r w) w rs.

(** The server a request is about ([getServers] is about none). *)
Definition target (r : Request) : option string :=
  match r with
  | GetServers => None
  | AddServer name _ | RemoveServer name | LoginServer _ name _
  | LogoutServer _ name | FetchServerProjects _ name | Authenticate name
  | GetProjectFile _ name _ _ | UploadProjectFile _ name _ _ _ _
  | AddProjectFolder _ name _ _ _ | DeleteProjectEntity _ name _ _ _
  | RenameProjectEntity _ name _ _ _ _ | MoveProjectEntity _ name _ _ _ _
  | CompileProjectEntity _ name _ _ | SyncCode _ name _ _ _ _
  | SyncPdf _ name _ _ _ _ | InitSocketIOAPI name => Some name
  end.

(** The methods whose body contains a [context.globalState.update]. *)
Definition updating (r : Request) : bool :=
  match r with
  | AddServer _ _ | RemoveServer _ | LoginServer _ _ _ | LogoutServer _ _
  | FetchServerProjects _ _ => true
  | _ => false
  end.

Definition isLoginServer (r : Request) : bool :=
  match r with
  | LoginServer _ _ _ => true
  | _ => false
  end.

(** The identity a remote call is made with; the two login calls carry none. *)
Definition identityOf (c : ApiCall) : option Identity :=
  match c with
  | cookiesLogin _ | passportLogin _ _ => None
  | logout i | getProjectsJson i | userProjectsJson i | getFile i _ _
  | uploadFile i _ _ _ _ | addFolder i _ _ _ | deleteEntity i _ _ _
  | renameEntity i _ _ _ _ | moveEntity i _ _ _ _ | deleteAuxFiles i _
  | compile i _ | proxySyncCode i _ _ _ _ | proxySyncPdf i _ _ _ _ => Some i
  end.

(** The session of the entry registered under [name], if it has one. *)
Definition sessionOf (w : World) (name : string) : option Login :=
  server ← registry w !! name; s_login server.

(** Every entry is registered under its own [name]. *)
Definition wellKeyed (persists : gmap string ServerPersist) : Prop :=
  map_Forall (λ name server, s_name server = name) persists.

(** Every cached project carries the [userId] of the session that caches
    it. *)
Definition stamped (login : Login) : Prop :=
  ∀ projects, l_projects login = Some projects →
    Forall (λ p, p_userId p = l_userId login) projects.

Definition cachesStamped (persists : gmap string ServerPersist) : Prop :=
  map_Forall (λ _ server, ∀ login, s_login server = Some login → stamped login)
             persists.

End Requests.

(** ** A concrete instance

    Used to run the model on examples: identities and payloads are strings,
    numbers are naturals and the remote service counts the calls it served. *)
#[local] Instance demo : Externals := {|
  Identity := string;
  MemberEntity := string;
  Entity := string;
  CompileOutput := string;
  SyncCodeOutput := string;
  SyncPdfOutput := string;
  Number := nat;
  Remote := nat;
|}.

Definition reply (type : string) (message : option string) : ResponseSchema :=
  {| r_type := type; r_message := message; r_identity := None;
     r_projects := None; r_content := None; r_entity := None;
     r_compile := None; r_syncCode := None; r_syncPdf := None |}.

Definition project (id userId name : string) : ProjectPersist :=
  {| p_id := id; p_userId := userId; p_name := name;
     p_lastUpdated := None; p_lastUpdatedBy := None; p_source := None;
     p_accessLevel := owner; p_archived := None; p_trashed := None |}.

(** A reply of type [success] with every payload. *)
Definition full : ResponseSchema :=
  {| r_type := "success"; r_message := Some "u1"; r_identity := Some "jar";
     r_projects := Some [project "p1" "" "thesis"; project "p2" "x" "slides"];
     r_content := Some [x25; x50]; r_entity := Some "entity";
     r_compile := Some "pdf"; r_syncCode := Some "page 1";
     r_syncPdf := Some "line 1" |}.

(** A remote service on which everything succeeds. *)
Definition helpful : BaseAPI := λ c n, (full, S n).

(** A remote service that answers [success] and nothing else. *)
Definition laconic : BaseAPI := λ c n, (reply "success" None, S n).

(** A remote service on which everything fails, with a message. *)
Definition failing : BaseAPI := λ c n, (reply "error" (Some "no"), S n).

(** The primary listing fails, the fallback succeeds. *)
Definition legacy : BaseAPI := λ c n,
  match c with
  | getProjectsJson _ => failing c n
  | _ => helpful c n
  end.

(** The auxiliary-file deletion fails, the rest succeeds. *)
Definition flaky : BaseAPI := λ c n,
  match c with
  | deleteAuxFiles _ _ => failing c n
  | _ => helpful c n
  end.

Definition lab : ServerPersist :=
  {| s_name := "lab"; s_url := "https://lab.example"; s_login := None |}.

Definition session : Login :=
  {| l_userId := "u1"; l_username := Some "a@lab.example"; l_identity := "jar";
     l_projects := Some [project "p0" "u1" "old"] |}.

Definition labIn : ServerPersist :=
  {| s_name := "lab"; s_url := "https://lab.example"; s_login := Some session |}.

Definition world (persists : gmap string ServerPersist) : World :=
  {| globalState := {[ keyServerPersists := persists ]}; remote := 0; trace := [] |}.

(** An untouched store, one logged-out entry, one logged-in entry. *)
Definition fresh : World := {| globalState := ∅; remote := 0; trace := [] |}.
Definition out : World := world {[ "lab" := lab ]}.
Definition inside : World := world {[ "lab" := labIn ]}.

Definition byEmail : gmap string string :=
  {[ "email" := "a@lab.example"; "password" := "secret" ]}.
Definition byCookie : gmap string string := {[ "cookies" := "sid=1" ]}.

(** A second server, and a store that holds both. *)
Definition office : ServerPersist :=
  {| s_name := "office"; s_url := "https://office.example"; s_login := None |}.
Definition campus : World := world {[ "lab" := labIn; "office" := office ]}.

(** The lab logged out beside the office. *)
Definition town : World := world {[ "lab" := lab; "office" := office ]}.

(** The store of [campus] with a second key in use beside the registry's. *)
Definition shared : World :=
  {| globalState := {[ keyServerPersists := {[ "lab" := labIn; "office" := office ]};
                       "recent-servers" := {[ "lab" := lab ]} ]};
     remote := 0; trace := [] |}.

(** Requests that leave three servers registered, the lab logged in anew and
    with a catalog fetched. *)
Definition errands : list Request :=
  [ AddServer "home" "https://home.example";
    LogoutServer failing "lab";
    LoginServer helpful "lab" byEmail;
    FetchServerProjects legacy "lab";
    RemoveServer "toString" ].

(** The registry [errands] leaves. *)
Definition afterErrands : gmap string ServerPersist :=
  {[ "home" := {| s_name := "home"; s_url := "https://home.example";
                  s_login := None |};
     "lab" := {| s_name := "lab"; s_url := "https://lab.example";
                 s_login :=
                   Some {| l_userId := "u1"; l_username := Some "a@lab.example";
                           l_identity := "jar";
                           l_projects := Some [project "p1" "u1" "thesis";
                                               project "p2" "u1" "slides"] |} |};
     "office" := office ]}.

(** A session from registration to removal, as a sequence of requests. *)
Definition story : list Request :=
  [ AddServer "lab" "https://lab.example";
    LoginServer helpful "lab" byEmail;
    FetchServerProjects legacy "lab";
    CompileProjectEntity flaky "lab" "p1" true;
    GetProjectFile failing "lab" "p1" "f1";
    LogoutServer failing "lab";
    RemoveServer "lab" ].

(** Register, log in by password, list the catalog, log out, authenticate. *)
Definition scenario : Async (list ProjectPersist * Promise Identity) :=
  addServer "lab" "https://lab.example";;
  loginServer helpful "lab" byEmail;;
  projects ← fetchServerProjects helpful "lab";
  logoutServer helpful "lab";;
  promise ← authenticate "lab";
  mret (projects, promise).

(** ** Which login call the credentials select

    Stated on the credentials, apart from [loginCall]: when a cookie handle
    is supplied (a [cookies] entry that is not empty) the cookie login is
    selected; when none is (no [cookies] entry), the password login with the
    [email] and [password] the dictionary holds. *)
Inductive selects `{Externals} (auth : gmap string string) : ApiCall → Prop :=
| selects_cookies cookies :
    auth !! "cookies" = Some cookies → cookies ≠ "" →
    selects auth (cookiesLogin cookies)
| selects_password :
    auth !! "cookies" = None →
    selects auth (passportLogin (auth !! "email") (auth !! "password")).

(** A project as the catalog returns it: [q] is [p] with its [userId]
    overwritten by [userId] and every other member as it was. *)
Definition restamped `{Externals} (userId : string) (p q : ProjectPersist) : Prop :=
  p_userId q = userId
  ∧ p_id q = p_id p
  ∧ p_name q = p_name p
  ∧ p_lastUpdated q = p_lastUpdated p
  ∧ p_lastUpdatedBy q = p_lastUpdatedBy p
  ∧ p_source q = p_source p
  ∧ p_accessLevel q = p_accessLevel p
  ∧ p_archived q = p_archived p
  ∧ p_trashed q = p_trashed p.

(** The two ways the catalog is listed: the primary call alone when it
    reports success, otherwise the primary call followed by the fallback.
    [listing api identity r0 cs res r] says that, started on the remote state
    [r0], the calls [cs] were made in that order, the last of them answered
    [res], and the remote state is then [r]. *)
Inductive listing `{Externals} (api : BaseAPI) (ident : Identity) (r0 : Remote)
    : list ApiCall → ResponseSchema → Remote → Prop :=
| listing_primary res r :
    api (getProjectsJson ident) r0 = (res, r) →
    r_type res = "success" →
    listing api ident r0 [getProjectsJson ident] res r
| listing_fallback res1 r1 res r :
    api (getProjectsJson ident) r0 = (res1, r1) →
    r_type res1 ≠ "success" →
    api (userProjectsJson ident) r1 = (res, r) →
    listing api ident r0 [getProjectsJson ident; userProjectsJson ident] res r.

(** * Properties *)

Section Properties.
Context `{Ext : Externals}.
Implicit Types (api : BaseAPI) (w : World) (name url : string)
  (server : ServerPersist) (login : Login) (res : ResponseSchema).

(** Unfolds the monad and the primitive effects. *)
Ltac run :=
  cbv [mbind Async_bind bind mret Async_ret ret throw get deref await
       update call showErrorMessage showMessageOf member loginOf assignLogin];
  cbn [fst snd].

Lemma isSuccess_true res : r_type res = "success" → isSuccess res = true.
Proof. intros E. unfold isSuccess. by apply bool_decide_eq_true. Qed.

Lemma isSuccess_false res : r_type res ≠ "success" → isSuccess res = false.
Proof. intros E. unfold isSuccess. by apply bool_decide_eq_false. Qed.

Lemma registry_update w (persists : gmap string ServerPersist) rem t :
  registry {| globalState := <[keyServerPersists := persists]> (globalState w);
              remote := rem; trace := t |} = persists.
Proof. unfold registry. cbn. by rewrite lookup_insert_eq. Qed.

Lemma registry_written (store : gmap string (gmap string ServerPersist))
    (persists : gmap string ServerPersist) (rem : Remote) (t : list Event) :
  registry {| globalState := <[keyServerPersists := persists]> store;
              remote := rem; trace := t |} = persists.
Proof. unfold registry. cbn. by rewrite lookup_insert_eq. Qed.

Lemma registry_same_store w rem t :
  registry {| globalState := globalState w; remote := rem; trace := t |} = registry w.
Proof. reflexivity. Qed.

Lemma calls_app (t1 t2 : list Event) : calls (t1 ++ t2) = calls t1 ++ calls t2.
Proof. unfold calls. apply omap_app. Qed.

Lemma shown_app (t1 t2 : list Event) : shown (t1 ++ t2) = shown t1 ++ shown t2.
Proof. unfold shown. apply omap_app. Qed.

Lemma writes_app (t1 t2 : list Event) : writes (t1 ++ t2) = writes t1 ++ writes t2.
Proof. unfold writes. apply omap_app. Qed.

Lemma loginCall_selects (auth : gmap string string) (c : ApiCall) :
  selects auth c → c = loginCall auth.
Proof.
  unfold loginCall, truthy.
  intros [cookies E Hne | E]; rewrite E; [|done].
  by rewrite bool_decide_eq_false_2.
Qed.

Lemma member_entry (persists : gmap string ServerPersist) name server :
  persists !! name = Some server → member persists name = Some (Entry server).
Proof. intros E. unfold member. by rewrite E. Qed.

Lemma member_missing (persists : gmap string ServerPersist) name :
  persists !! name = None → name ∉ inherited → member persists name = None.
Proof. intros E Hname. unfold member. by rewrite E, bool_decide_eq_false_2. Qed.

Lemma member_inherited (persists : gmap string ServerPersist) name :
  name ∈ inherited → is_Some (member persists name).
Proof.
  intros Hname. unfold member. destruct (persists !! name); [done|].
  by rewrite bool_decide_eq_true_2.
Qed.

(** C8 (defect). [addServer] tests [persists[name]===undefined], and for a
    name that every object inherits from [Object.prototype] that test fails
    whether or not a server is registered under the name: the call returns
    false and writes nothing, so no server can be added under such a name. *)
Theorem addServer_inherited_name name url w :
  name ∈ inherited →
  addServer name url w = (Returned false, w).
Proof.
  intros Hname. unfold addServer.
  cbv [mbind Async_bind bind mret Async_ret ret get].
  by destruct (member_inherited (registry w) name Hname) as [found ->].
Qed.

(** X23. [addServer] under a name that is not inherited from
    [Object.prototype]: when the name is not registered, the call returns
    true, the registry gains under it an entry with the given name and url and
    no session, every other entry is kept, and the new registry is written to
    the store (the only effect); when the name is registered, the call returns
    false and nothing changes. *)
Theorem addServer_spec name url w :
  (registry w !! name = None → name ∉ inherited →
   ∃ w', addServer name url w = (Returned true, w')
     ∧ registry w' !! name = Some {| s_name := name; s_url := url; s_login := None |}
     ∧ (∀ other, other ≠ name → registry w' !! other = registry w !! other)
     ∧ trace w' = trace w ++ [Update (registry w')]
     ∧ remote w' = remote w)
  ∧ (is_Some (registry w !! name) → addServer name url w = (Returned false, w)).
Proof.
  split.
  - intros Hnew Hname. eexists. unfold addServer. run.
    rewrite Hnew, (bool_decide_eq_false_2 _ Hname).
    split; [reflexivity|]. rewrite registry_update. cbn.
    split; [apply lookup_insert_eq|].
    split; [|done]. intros other Hne. by rewrite lookup_insert_ne.
  - intros [server Hold]. unfold addServer. run. by rewrite Hold.
Qed.

(** A server added under a new name is among those [getServers] lists,
    paired with a handle on its url. *)
Lemma addServer_listed name url w :
  registry w !! name = None →
  name ∉ inherited →
  ∃ w' listed, addServer name url w = (Returned true, w')
    ∧ getServers w' = (Returned listed, w')
    ∧ ({| s_name := name; s_url := url; s_login := None |}, {| base_url := url |})
      ∈ listed.
Proof.
  intros Hnew Hname. do 2 eexists. unfold addServer, getServers. run.
  rewrite Hnew, (bool_decide_eq_false_2 _ Hname).
  split; [reflexivity|]. split; [reflexivity|].
  rewrite registry_update.
  apply (list_elem_of_fmap_2 (λ persist, (persist, {| base_url := s_url persist |}))
           _ {| s_name := name; s_url := url; s_login := None |}).
  apply (list_elem_of_fmap_2 snd _ (name, _)).
  apply elem_of_map_to_list, lookup_insert_eq.
Qed.

(** C6. [loginServer] on an entry that is logged in returns false and leaves
    the world as it was: no remote call, no write, the session (identity and
    cached projects included) untouched. *)
Theorem loginServer_logged_in api name (auth : gmap string string) w login :
  loggedIn w name login →
  loginServer api name auth w = (Returned false, w).
Proof.
  intros (server & Hs & Hl). unfold loginServer. run.
  rewrite Hs. cbn. by rewrite Hl.
Qed.



(** C2. [fetchServerProjects] on a logged-in entry lists the catalog with the
    primary call and, only when that reports non-success, with the fallback
    call: the remote calls made are those of the listing and no other.  When
    the listing so obtained has type [success] and carries projects, the call
    returns those projects, in their order, each with its [userId] overwritten
    by the session's and every other member kept; that sequence replaces the
    session's cached projects (the rest of the session and of the registry is
    kept), and the new registry is written to the store after the remote
    calls. *)
Theorem fetchServerProjects_success api name w server login
    (cs : list ApiCall) res (rem : Remote) :
  registry w !! name = Some server →
  s_login server = Some login →
  listing api (l_identity login) (remote w) cs res rem →
  ∃ returned w', fetchServerProjects api name w = (Returned returned, w')
    ∧ calls (trace w') = calls (trace w) ++ cs
    ∧ remote w' = rem
    ∧ ∀ projects,
        r_type res = "success" →
        r_projects res = Some projects →
        Forall2 (restamped (l_userId login)) projects returned
        ∧ registry w' !! name
          = Some {| s_name := s_name server; s_url := s_url server;
                    s_login := Some {| l_userId := l_userId login;
                                       l_username := l_username login;
                                       l_identity := l_identity login;
                                       l_projects := Some returned |} |}
        ∧ (∀ other, other ≠ name → registry w' !! other = registry w !! other)
        ∧ trace w' = trace w ++ (Call <$> cs) ++ [Update (registry w')].
Proof.
  intros Hs Hl Hlist.
  assert (∀ projects : list ProjectPersist,
            Forall2 (restamped (l_userId login)) projects
                    (setUserId (l_userId login) <$> projects)) as Hstamp.
  { intros projects. apply Forall2_fmap_r, Forall_Forall2_diag, Forall_forall.
    intros p _. by repeat split. }
  destruct Hlist as [res r Hapi Hty1 | res1 r1 res r Hapi1 Hty1 Hapi].
  - (* the primary listing reports success: no fallback *)
    pose proof (isSuccess_true _ Hty1) as Hok.
    destruct (r_projects res) as [projects|] eqn:Hps;
      [|destruct (r_message res) as [msg|] eqn:Hmsg];
      do 2 eexists;
      (split;
       [ unfold fetchServerProjects; run; rewrite Hs; cbn; rewrite Hl; run; cbn;
         rewrite Hapi; cbn; rewrite Hok; cbn; rewrite Hok, Hps; run;
         rewrite ?Hmsg; reflexivity |]);
      cbn [trace remote]; rewrite !calls_app; cbn;
      rewrite ?app_nil_r, <- ?app_assoc; (split; [done|]); (split; [done|]);
      intros projects' _ [= <-].
    all: split; [apply Hstamp|]; rewrite registry_written;
      unfold setLogin, setProjects;
      (split; [apply lookup_insert_eq|]);
      (split; [intros other Hne; by rewrite lookup_insert_ne|]); done.
  - (* the primary listing reports non-success: the fallback decides *)
    pose proof (isSuccess_false _ Hty1) as Hko.
    destruct (isSuccess res) eqn:Hok;
      [destruct (r_projects res) as [projects|] eqn:Hps|];
      try destruct (r_message res) as [msg|] eqn:Hmsg;
      do 2 eexists;
      (split;
       [ unfold fetchServerProjects; run; rewrite Hs; cbn; rewrite Hl; run; cbn;
         rewrite Hapi1; cbn; rewrite Hko; cbn; rewrite Hapi; cbn;
         rewrite Hok, ?Hps; run; rewrite ?Hmsg; reflexivity |]);
      cbn [trace remote]; rewrite !calls_app; cbn;
      rewrite ?app_nil_r, <- ?app_assoc; (split; [done|]); (split; [done|]);
      intros projects' Hty;
      try (by rewrite (isSuccess_true _ Hty) in Hok);
      intros [= <-].
    all: split; [apply Hstamp|]; rewrite registry_written;
      unfold setLogin, setProjects;
      (split; [apply lookup_insert_eq|]);
      (split; [intros other Hne; by rewrite lookup_insert_ne|]); done.
Qed.

(** C3. [fetchServerProjects] on a logged-in entry, when the primary and the
    fallback listing both report non-success: the call returns the empty
    sequence, the store is left as it was and nothing is written to it, and the
    only message shown is the fallback's, when it has one (the primary's
    message is never shown). *)
Theorem fetchServerProjects_both_fail api name w server login
    res1 (r1 : Remote) res2 (r2 : Remote) :
  registry w !! name = Some server →
  s_login server = Some login →
  api (getProjectsJson (l_identity login)) (remote w) = (res1, r1) →
  r_type res1 ≠ "success" →
  api (userProjectsJson (l_identity login)) r1 = (res2, r2) →
  r_type res2 ≠ "success" →
  ∃ w', fetchServerProjects api name w = (Returned [], w')
    ∧ globalState w' = globalState w
    ∧ registry w' !! name = Some server
    ∧ writes (trace w') = writes (trace w)
    ∧ shown (trace w') = shown (trace w) ++ option_list (r_message res2)
    ∧ calls (trace w')
      = calls (trace w) ++ [getProjectsJson (l_identity login);
                            userProjectsJson (l_identity login)].
Proof.
  intros Hs Hl Hapi1 Hty1 Hapi2 Hty2.
  unfold fetchServerProjects. run. rewrite Hs. cbn. rewrite Hl.
  run. cbn. rewrite Hapi1. cbn. rewrite (isSuccess_false _ Hty1). cbn.
  rewrite Hapi2. cbn. rewrite (isSuccess_false _ Hty2).
  destruct (r_message res2) as [msg|]; cbn;
    (eexists; split; [reflexivity|]);
    rewrite registry_same_store; cbn [globalState trace];
    rewrite !writes_app, !shown_app, !calls_app; cbn;
    rewrite ?app_nil_r, <- ?app_assoc; done.
Qed.


(** C7. [compileProjectEntity] on a logged-in entry.  With
    [needCacheClearFirst] set, the remote calls are the auxiliary-file
    deletion followed by the compile call, whatever the deletion answers: the
    returned value and the message shown are those of the compile reply alone.
    With [needCacheClearFirst] unset the compile call is the only remote
    call. *)
Theorem compileProjectEntity_calls api name projectId w server login :
  registry w !! name = Some server →
  s_login server = Some login →
  let ident := l_identity login in
  let result res := if isSuccess res then r_compile res else None in
  let complaint res := if isSuccess res then [] else option_list (r_message res) in
  (∀ resd (remd : Remote) resc (remc : Remote),
     api (deleteAuxFiles ident projectId) (remote w) = (resd, remd) →
     api (compile ident projectId) remd = (resc, remc) →
     ∃ w', compileProjectEntity api name projectId true w = (Returned (result resc), w')
       ∧ calls (trace w')
         = calls (trace w) ++ [deleteAuxFiles ident projectId; compile ident projectId]
       ∧ shown (trace w') = shown (trace w) ++ complaint resc
       ∧ globalState w' = globalState w
       ∧ remote w' = remc)
  ∧ (∀ resc (remc : Remote),
     api (compile ident projectId) (remote w) = (resc, remc) →
     ∃ w', compileProjectEntity api name projectId false w = (Returned (result resc), w')
       ∧ calls (trace w') = calls (trace w) ++ [compile ident projectId]
       ∧ shown (trace w') = shown (trace w) ++ complaint resc
       ∧ globalState w' = globalState w
       ∧ remote w' = remc).
Proof.
  intros Hs Hl ident result complaint. subst ident result complaint. split.
  - intros resd remd resc remc Hd Hc.
    unfold compileProjectEntity. run. rewrite Hs. cbn. rewrite Hl.
    run. cbn. rewrite Hd. cbn. rewrite Hc. cbn.
    destruct (isSuccess resc); [|destruct (r_message resc) as [msg|]]; cbn;
      (eexists; split; [reflexivity|]); cbn [globalState trace remote];
      rewrite !calls_app, !shown_app; cbn;
      rewrite ?app_nil_r, <- ?app_assoc; done.
  - intros resc remc Hc.
    unfold compileProjectEntity. run. rewrite Hs. cbn. rewrite Hl.
    run. cbn. rewrite Hc. cbn.
    destruct (isSuccess resc); [|destruct (r_message resc) as [msg|]]; cbn;
      (eexists; split; [reflexivity|]); cbn [globalState trace remote];
      rewrite !calls_app, !shown_app; cbn;
      rewrite ?app_nil_r, <- ?app_assoc; done.
Qed.

(** C9 (amended). For a name under which [persists[name]] is [undefined] (it
    is not in the registry and is not a name inherited from
    [Object.prototype]), every operation that looks the entry up (all but
    listing, adding and removing) raises a [TypeError] when it reads [login]
    of the missing entry, before any remote call or write: it does not return
    its failure value. *)
Theorem unregistered_name_throws api name w
    (auth : gmap string string)
    (projectId parentFolderId fileName folderName entityType entityId
     newName newParentId fileId filePath : string) (fileType : FileType)
    (content : list byte) (needCacheClearFirst : bool)
    (line column page h v : Number) :
  registry w !! name = None →
  name ∉ inherited →
  loginServer api name auth w = (Thrown TypeError, w)
  ∧ logoutServer api name w = (Thrown TypeError, w)
  ∧ fetchServerProjects api name w = (Thrown TypeError, w)
  ∧ authenticate name w = (Thrown TypeError, w)
  ∧ getProjectFile api name projectId fileId w = (Thrown TypeError, w)
  ∧ uploadProjectFile api name projectId parentFolderId fileName content w
    = (Thrown TypeError, w)
  ∧ addProjectFolder api name projectId folderName parentFolderId w
    = (Thrown TypeError, w)
  ∧ deleteProjectEntity api name projectId fileType fileId w
    = (Thrown TypeError, w)
  ∧ renameProjectEntity api name projectId entityType entityId newName w
    = (Thrown TypeError, w)
  ∧ moveProjectEntity api name projectId entityType entityId newParentId w
    = (Thrown TypeError, w)
  ∧ compileProjectEntity api name projectId needCacheClearFirst w
    = (Thrown TypeError, w)
  ∧ syncCode api name projectId filePath line column w = (Thrown TypeError, w)
  ∧ syncPdf api name projectId page h v w = (Thrown TypeError, w)
  ∧ initSocketIOAPI name w = (Thrown TypeError, w).
Proof.
  intros Hnone Hname.
  unfold loginServer, logoutServer, fetchServerProjects, getProjectFile,
    uploadProjectFile, addProjectFolder, deleteProjectEntity,
    renameProjectEntity, moveProjectEntity, compileProjectEntity,
    syncCode, syncPdf, initSocketIOAPI, authenticate.
  run. by rewrite Hnone, (bool_decide_eq_false_2 _ Hname).
Qed.


End Properties.

(** * The properties at work on the concrete instance *)

(** [addServer_inherited_name] on an empty store: nothing is registered
    under ["constructor"], and the server is refused all the same. *)
Lemma addServer_inherited_name_witness :
  ("constructor" ∈ inherited ∧ registry fresh !! "constructor" = None)
  ∧ addServer "constructor" "https://constructor.example" fresh
    = (Returned false, fresh).
Proof.
  assert ("constructor" ∈ inherited) as Hname by compute_done.
  exact (conj (conj Hname eq_refl)
           (addServer_inherited_name "constructor" "https://constructor.example"
              fresh Hname)).
Defined.

(** [addServer_spec] on an empty store and on a store that has the name. *)
Lemma addServer_spec_witness :
  ((registry fresh !! "lab" = None ∧ "lab" ∉ inherited)
   ∧ ∃ w', addServer "lab" "https://lab.example" fresh = (Returned true, w')
       ∧ registry w' !! "lab" = Some lab
       ∧ (∀ other, other ≠ "lab" → registry w' !! other = registry fresh !! other)
       ∧ trace w' = trace fresh ++ [Update (registry w')]
       ∧ remote w' = remote fresh)
  ∧ (is_Some (registry inside !! "lab")
     ∧ addServer "lab" "https://other.example" inside = (Returned false, inside)).
Proof.
  destruct (addServer_spec "lab" "https://lab.example" fresh) as [Hnew _].
  destruct (addServer_spec "lab" "https://other.example" inside) as [_ Hold].
  assert (registry fresh !! "lab" = None) as Hfree by reflexivity.
  assert ("lab" ∉ inherited) as Hname by compute_done.
  assert (is_Some (registry inside !! "lab")) as Htaken
    by (exists labIn; reflexivity).
  exact (conj (conj (conj Hfree Hname) (Hnew Hfree Hname))
           (conj Htaken (Hold Htaken))).
Defined.

(** [loginServer_logged_in] on the logged-in entry. *)
Lemma loginServer_logged_in_witness :
  loggedIn inside "lab" session
  ∧ loginServer helpful "lab" byEmail inside = (Returned false, inside).
Proof.
  assert (loggedIn inside "lab" session) as Hin
    by (exists labIn; split; reflexivity).
  exact (conj Hin (loginServer_logged_in helpful "lab" byEmail inside session Hin)).
Defined.




(** [fetchServerProjects_success] on the fallback path. *)
Lemma fetchServerProjects_success_witness :
  (registry inside !! "lab" = Some labIn
   ∧ s_login labIn = Some session
   ∧ listing legacy "jar" (remote inside)
       [getProjectsJson "jar"; userProjectsJson "jar"] full 2)
  ∧ ∃ returned w', fetchServerProjects legacy "lab" inside = (Returned returned, w')
      ∧ calls (trace w')
        = calls (trace inside) ++ [getProjectsJson "jar"; userProjectsJson "jar"]
      ∧ remote w' = 2
      ∧ ∀ projects,
          r_type full = "success" →
          r_projects full = Some projects →
          Forall2 (restamped "u1") projects returned
          ∧ registry w' !! "lab"
            = Some {| s_name := "lab"; s_url := "https://lab.example";
                      s_login :=
                        Some {| l_userId := "u1"; l_username := Some "a@lab.example";
                                l_identity := "jar";
                                l_projects := Some returned |} |}
          ∧ (∀ other, other ≠ "lab" → registry w' !! other = registry inside !! other)
          ∧ trace w' = trace inside
                       ++ (Call <$> [getProjectsJson "jar"; userProjectsJson "jar"])
                       ++ [Update (registry w')].
Proof.
  assert (listing legacy "jar" (remote inside)
            [getProjectsJson "jar"; userProjectsJson "jar"] full 2) as Hlist.
  { apply (listing_fallback legacy "jar" 0 (reply "error" (Some "no")) 1 full 2);
      [reflexivity | discriminate | reflexivity]. }
  exact (conj (conj eq_refl (conj eq_refl Hlist))
           (fetchServerProjects_success legacy "lab" inside labIn session
              [getProjectsJson "jar"; userProjectsJson "jar"] full 2
              eq_refl eq_refl Hlist)).
Defined.

(** [fetchServerProjects_both_fail]: the cached project [p0] stays. *)
Lemma fetchServerProjects_both_fail_witness :
  (registry inside !! "lab" = Some labIn
   ∧ s_login labIn = Some session
   ∧ failing (getProjectsJson "jar") (remote inside) = (reply "error" (Some "no"), 1)
   ∧ r_type (reply "error" (Some "no")) ≠ "success"
   ∧ failing (userProjectsJson "jar") 1 = (reply "error" (Some "no"), 2))
  ∧ ∃ w', fetchServerProjects failing "lab" inside = (Returned [], w')
      ∧ globalState w' = globalState inside
      ∧ registry w' !! "lab" = Some labIn
      ∧ writes (trace w') = writes (trace inside)
      ∧ shown (trace w') = shown (trace inside) ++ ["no"]
      ∧ calls (trace w')
        = calls (trace inside) ++ [getProjectsJson "jar"; userProjectsJson "jar"].
Proof.
  assert (r_type (reply "error" (Some "no")) ≠ "success") as Herr by discriminate.
  split.
  - repeat split; try reflexivity. exact Herr.
  - exact (fetchServerProjects_both_fail failing "lab" inside labIn session
             (reply "error" (Some "no")) 1 (reply "error" (Some "no")) 2
             eq_refl eq_refl eq_refl Herr eq_refl Herr).
Defined.


(** [compileProjectEntity_calls] when the auxiliary-file deletion fails. *)
Lemma compileProjectEntity_calls_witness :
  (registry inside !! "lab" = Some labIn
   ∧ s_login labIn = Some session
   ∧ flaky (deleteAuxFiles "jar" "p1") (remote inside) = (reply "error" (Some "no"), 1)
   ∧ flaky (compile "jar" "p1") 1 = (full, 2)
   ∧ flaky (compile "jar" "p1") (remote inside) = (full, 1))
  ∧ (∃ w', compileProjectEntity flaky "lab" "p1" true inside = (Returned (Some "pdf"), w')
       ∧ calls (trace w') = [deleteAuxFiles "jar" "p1"; compile "jar" "p1"]
       ∧ shown (trace w') = []
       ∧ globalState w' = globalState inside
       ∧ remote w' = 2)
  ∧ (∃ w', compileProjectEntity flaky "lab" "p1" false inside = (Returned (Some "pdf"), w')
       ∧ calls (trace w') = [compile "jar" "p1"]
       ∧ shown (trace w') = []
       ∧ globalState w' = globalState inside
       ∧ remote w' = 1).
Proof.
  destruct (compileProjectEntity_calls flaky "lab" "p1" inside labIn session
              eq_refl eq_refl) as [Hclear Hplain].
  split; [repeat split; reflexivity|]. split.
  - exact (Hclear (reply "error" (Some "no")) 1 full 2 eq_refl eq_refl).
  - exact (Hplain full 1 eq_refl).
Defined.

(** [unregistered_name_throws] for a name the registry does not hold. *)
Lemma unregistered_name_throws_witness :
  (registry out !! "office" = None ∧ "office" ∉ inherited)
  ∧ loginServer helpful "office" byEmail out = (Thrown TypeError, out)
  ∧ logoutServer helpful "office" out = (Thrown TypeError, out)
  ∧ fetchServerProjects helpful "office" out = (Thrown TypeError, out)
  ∧ authenticate "office" out = (Thrown TypeError, out)
  ∧ getProjectFile helpful "office" "p1" "f1" out = (Thrown TypeError, out)
  ∧ uploadProjectFile helpful "office" "p1" "root" "main.tex" [x25] out
    = (Thrown TypeError, out)
  ∧ addProjectFolder helpful "office" "p1" "figures" "root" out
    = (Thrown TypeError, out)
  ∧ deleteProjectEntity helpful "office" "p1" "doc" "f1" out = (Thrown TypeError, out)
  ∧ renameProjectEntity helpful "office" "p1" "doc" "f1" "intro.tex" out
    = (Thrown TypeError, out)
  ∧ moveProjectEntity helpful "office" "p1" "doc" "f1" "figures" out
    = (Thrown TypeError, out)
  ∧ compileProjectEntity helpful "office" "p1" true out = (Thrown TypeError, out)
  ∧ syncCode helpful "office" "p1" "main.tex" 3 1 out = (Thrown TypeError, out)
  ∧ syncPdf helpful "office" "p1" 1 10 20 out = (Thrown TypeError, out)
  ∧ initSocketIOAPI "office" out = (Thrown TypeError, out).
Proof.
  assert (registry out !! "office" = None) as Hnone by reflexivity.
  assert ("office" ∉ inherited) as Hname by compute_done.
  exact (conj (conj Hnone Hname)
           (unregistered_name_throws helpful "office" out byEmail "p1" "root"
              "main.tex" "figures" "doc" "f1" "intro.tex" "figures" "f1"
              "main.tex" "doc" [x25] true 3 1 1 10 20 Hnone Hname)).
Defined.

(** C9 as stated fails at a name inherited from [Object.prototype]: nothing
    is registered under ["constructor"], yet [persists["constructor"]] is a
    built-in object without [login] member.  No operation throws: each returns
    its failure value, and [loginServer] calls the remote and, when granted,
    returns true with the registry written back as it was. *)
Lemma unregistered_inherited_name_returns :
  registry out !! "constructor" = None
  ∧ logoutServer helpful "constructor" out = (Returned false, out)
  ∧ fetchServerProjects helpful "constructor" out = (Returned [], out)
  ∧ authenticate "constructor" out = (Returned Reject, out)
  ∧ getProjectFile helpful "constructor" "p1" "f1" out = (Returned [], out)
  ∧ deleteProjectEntity helpful "constructor" "p1" "doc" "f1" out
    = (Returned false, out)
  ∧ compileProjectEntity helpful "constructor" "p1" true out = (Returned None, out)
  ∧ initSocketIOAPI "constructor" out = (Returned None, out)
  ∧ ∃ w', loginServer helpful "constructor" byEmail out = (Returned true, w')
      ∧ calls (trace w') = [passportLogin (Some "a@lab.example") (Some "secret")]
      ∧ writes (trace w') = [registry out]
      ∧ registry w' = registry out.
Proof.
  repeat split; try reflexivity.
  eexists. split; [reflexivity|]. by vm_compute.
Qed.


(** ** Worked examples *)

(** The file read on the three remote services. *)
Example getProjectFile_content :
  fst (getProjectFile helpful "lab" "p1" "f1" inside) = Returned [x25; x50].
Proof. reflexivity. Qed.

Example getProjectFile_no_content :
  getProjectFile laconic "lab" "p1" "f1" inside
  = (Returned [], {| globalState := globalState inside; remote := 1;
                     trace := [Call (getFile "jar" "p1" "f1")] |}).
Proof. reflexivity. Qed.

Example getProjectFile_failure_is_silent :
  getProjectFile failing "lab" "p1" "f1" inside
  = (Returned [], {| globalState := globalState inside; remote := 1;
                     trace := [Call (getFile "jar" "p1" "f1")] |}).
Proof. reflexivity. Qed.

(** A failed login shows the remote message and keeps the entry logged out. *)
Example loginServer_failure :
  loginServer failing "lab" byEmail out
  = (Returned false,
     {| globalState := globalState out; remote := 1;
        trace := [Call (passportLogin (Some "a@lab.example") (Some "secret"));
                  ShowErrorMessage "no"] |}).
Proof. reflexivity. Qed.

(** An empty [cookies] entry is not a cookie handle. *)
Example loginCall_empty_cookies :
  loginCall (<["cookies" := ""]> byEmail)
  = passportLogin (Some "a@lab.example") (Some "secret").
Proof. reflexivity. Qed.

(** The scenario end to end. *)
Example scenario_runs :
  let '(result, w) := scenario fresh in
  result = Returned ([project "p1" "u1" "thesis"; project "p2" "u1" "slides"], Reject)
  ∧ registry w = {[ "lab" := lab ]}
  ∧ calls (trace w)
    = [passportLogin (Some "a@lab.example") (Some "secret");
       getProjectsJson "jar"; logout "jar"]
  ∧ length (writes (trace w)) = 4.
Proof. vm_compute. repeat split. Qed.

(** * Further properties *)

Section Coverage.
Context `{Ext : Externals}.
Implicit Types (api : BaseAPI) (w : World) (name url : string)
  (server : ServerPersist) (login : Login) (res : ResponseSchema)
  (r : Request) (rs : list Request).

Ltac unfold_methods :=
  unfold syncCode, syncPdf;
  unfold getServers, addServer, removeServer, loginServer, logoutServer,
    fetchServerProjects, authenticate, getProjectFile, uploadProjectFile,
    addProjectFolder, deleteProjectEntity, renameProjectEntity,
    moveProjectEntity, compileProjectEntity, initSocketIOAPI.

Ltac simp :=
  cbv [mbind Async_bind bind mret Async_ret ret throw get deref await
       update call showErrorMessage showMessageOf member loginOf assignLogin];
  cbn [fst snd globalState remote trace negb].

(** Splits on the innermost scrutinee the goal is blocked on. *)
Ltac split_step :=
  match goal with
  | |- context [match ?x with _ => _ end] =>
      lazymatch x with
      | context [match _ with _ => _ end] => fail
      | _ => destruct x eqn:?
      end
  end.

Ltac explore := simp; repeat (split_step; simp).

Ltac traces :=
  rewrite ?writes_app, ?calls_app, ?shown_app; cbn;
  rewrite ?app_nil_r, <- ?app_assoc.

Lemma performAll_snoc rs r w :
  performAll (rs ++ [r]) w = perform r (performAll rs w).
Proof. unfold performAll. by rewrite foldl_app. Qed.

(** What one request does to the store: nothing, or one write of a whole
    registry. *)
Lemma perform_store r w :
  (globalState (perform r w) = globalState w
   ∧ writes (trace (perform r w)) = writes (trace w))
  ∨ ∃ persists,
      globalState (perform r w) = <[keyServerPersists := persists]> (globalState w)
      ∧ writes (trace (perform r w)) = writes (trace w) ++ [persists].
Proof.
  destruct r; unfold perform; unfold_methods; explore;
    first [ left; split; [reflexivity|]; by traces
          | right; eexists; split; [reflexivity|]; by traces ].
Qed.

(** X1. Over any sequence of requests the store is written at most once per
    request, always with a whole registry, and what the store holds at the end
    is the last registry written (the initial one when nothing was). *)
Theorem registry_is_last_write rs w :
  ∃ written,
    writes (trace (performAll rs w)) = writes (trace w) ++ written
    ∧ length written ≤ length rs
    ∧ registry (performAll rs w) = default (registry w) (last written).
Proof.
  induction rs as [|r rs IH] using rev_ind.
  - exists []. by rewrite app_nil_r.
  - destruct IH as (written & Hw & Hlen & Hreg).
    rewrite performAll_snoc, length_app. cbn.
    destruct (perform_store r (performAll rs w)) as [[Hg Ht] | (p & Hg & Ht)].
    + exists written. rewrite Ht. split; [done|]. split; [lia|].
      unfold registry in *. by rewrite Hg.
    + exists (written ++ [p]). rewrite Ht, Hw, length_app, last_snoc. cbn.
      split; [by rewrite app_assoc|]. split; [lia|].
      unfold registry. by rewrite Hg, lookup_insert_eq.
Qed.

(** X2. No request touches a key of the store other than the registry's. *)
Theorem other_keys_untouched rs w (key : string) :
  key ≠ keyServerPersists →
  globalState (performAll rs w) !! key = globalState w !! key.
Proof.
  intros Hkey. induction rs as [|r rs IH] using rev_ind; [done|].
  rewrite performAll_snoc.
  destruct (perform_store r (performAll rs w)) as [[Hg _] | (p & Hg & _)];
    rewrite Hg; [done|]. by rewrite lookup_insert_ne.
Qed.

(** X3. The methods without a [globalState.update] in their body leave the
    store alone in every world and for every reply: file access, the entity
    operations, compilation, the sync bridge, authentication, the socket
    factory and the listing never change a registry entry, a session or a
    cached catalog. *)
Theorem reading_requests_keep_store r w :
  updating r = false →
  globalState (perform r w) = globalState w
  ∧ writes (trace (perform r w)) = writes (trace w).
Proof.
  intros Hr. destruct r; try discriminate Hr;
    unfold perform; unfold_methods; explore; split; try reflexivity; by traces.
Qed.


(** X5. With a session, every remote call a request makes carries the
    identity stored for the entry it is about, and there are at most two of
    them. *)
Theorem calls_carry_stored_identity r w name login :
  target r = Some name →
  sessionOf w name = Some login →
  ∃ made, calls (trace (perform r w)) = calls (trace w) ++ made
    ∧ Forall (λ c, identityOf c = Some (l_identity login)) made
    ∧ length made ≤ 2.
Proof.
  intros Hr Hin. unfold sessionOf in Hin.
  destruct (registry w !! name) as [server|] eqn:Hs; [|done]. cbn in Hin.
  destruct r; try discriminate Hr; injection Hr as ->;
    unfold perform; unfold_methods; simp; rewrite Hs; simp; rewrite ?Hin;
    explore; traces;
    first [ exists []; rewrite ?app_nil_r; by repeat constructor
          | eexists [_]; split; [reflexivity|]; split; [by repeat constructor | cbn; lia]
          | eexists [_; _]; split; [reflexivity|]; split; [by repeat constructor | cbn; lia] ].
Qed.

(** X6. A request about one server never changes the entry of another. *)
Theorem other_entries_untouched r w name other :
  target r = Some name →
  other ≠ name →
  registry (perform r w) !! other = registry w !! other.
Proof.
  intros Hr Hne.
  destruct r; try discriminate Hr; injection Hr as ->;
    unfold perform; unfold_methods; explore;
    rewrite ?registry_update, ?registry_same_store; unfold setLogin;
    by rewrite ?lookup_insert_ne, ?lookup_delete_ne.
Qed.

(** X7. Only [addServer] and [removeServer] change which names are
    registered. *)
Theorem registered_names_fixed r w :
  (∀ name url, r ≠ AddServer name url) →
  (∀ name, r ≠ RemoveServer name) →
  dom (registry (perform r w)) = dom (registry w).
Proof.
  intros Hadd Hremove.
  destruct r; try (by destruct (Hadd name url)); try (by destruct (Hremove name));
    unfold perform; unfold_methods; explore;
    rewrite ?registry_update, ?registry_same_store; unfold setLogin;
    try reflexivity;
    match goal with H : registry w !! ?n = Some ?s |- _ =>
      exact (dom_insert_lookup_L _ _ _ (mk_is_Some _ s H)) end.
Qed.

(** X8. No request rewrites the [name] or the [url] of an entry: an entry
    that is still registered after a request has those it had before. *)
Theorem entries_keep_name_and_url r w name server server' :
  registry w !! name = Some server →
  registry (perform r w) !! name = Some server' →
  s_name server' = s_name server ∧ s_url server' = s_url server.
Proof.
  intros Hs. revert server'.
  destruct r; unfold perform; unfold_methods; explore;
    rewrite ?registry_update, ?registry_same_store; unfold setLogin;
    intros server';
    try (intros Hs'; rewrite Hs in Hs'; by injection Hs' as <-);
    match goal with
    | |- <[?n := _]> _ !! _ = _ → _ =>
        destruct (decide (n = name)) as [->|];
        [ rewrite lookup_insert_eq; intros [= <-]; cbn; split; congruence
        | rewrite lookup_insert_ne by done;
          intros Hs'; rewrite Hs in Hs'; by injection Hs' as <- ]
    | |- delete ?n _ !! _ = _ → _ =>
        destruct (decide (n = name)) as [->|];
        [ by rewrite lookup_delete_eq
        | rewrite lookup_delete_ne by done;
          intros Hs'; rewrite Hs in Hs'; by injection Hs' as <- ]
    end.
Qed.

Lemma perform_wellKeyed r w :
  wellKeyed (registry w) → wellKeyed (registry (perform r w)).
Proof.
  unfold wellKeyed. intros Hinv.
  destruct r; unfold perform; unfold_methods; explore;
    rewrite ?registry_update, ?registry_same_store; unfold setLogin;
    try assumption;
    first [ by apply map_Forall_delete
          | apply map_Forall_insert_2; [cbn|assumption] ];
    first [ reflexivity
          | match goal with H : registry w !! ?n = Some ?s |- _ =>
              exact (Hinv n s H) end ].
Qed.

Lemma stamped_setUserId login (projects : list ProjectPersist) :
  stamped (setProjects (setUserId (l_userId login) <$> projects) login).
Proof.
  intros ps [= <-]. cbn. apply Forall_fmap, Forall_forall. by intros p _.
Qed.

Lemma perform_cachesStamped r w :
  cachesStamped (registry w) → cachesStamped (registry (perform r w)).
Proof.
  unfold cachesStamped. intros Hinv.
  destruct r; unfold perform; unfold_methods; explore;
    rewrite ?registry_update, ?registry_same_store; unfold setLogin;
    try assumption;
    first [ by apply map_Forall_delete
          | apply map_Forall_insert_2; [cbn|assumption] ];
    intros login' [= <-]; first [ apply stamped_setUserId | by intros ps ].
Qed.

(** X9. Every entry is registered under its own name: true of a store in
    which it holds to begin with (the empty one in particular), it stays true
    through any sequence of requests. *)
Theorem wellKeyed_invariant rs w :
  wellKeyed (registry w) → wellKeyed (registry (performAll rs w)).
Proof.
  intros Hinv. induction rs as [|r rs IH] using rev_ind; [done|].
  rewrite performAll_snoc. by apply perform_wellKeyed.
Qed.

(** X10. The projects a session caches all carry the session's [userId]: this
    too is kept by any sequence of requests. *)
Theorem cachesStamped_invariant rs w :
  cachesStamped (registry w) → cachesStamped (registry (performAll rs w)).
Proof.
  intros Hinv. induction rs as [|r rs IH] using rev_ind; [done|].
  rewrite performAll_snoc. by apply perform_cachesStamped.
Qed.

(** X11. [removeServer]: a registered entry, with or without a session, is
    deleted, the other entries are kept, the new registry is written and true
    is returned, without any remote call (a session is dropped without a
    remote logout).  For a name that is not registered there are two cases,
    as [persists[name]!==undefined] also holds of the names inherited from
    [Object.prototype]: under such a name the call returns true and writes the
    registry back as it was; under any other it returns false and changes
    nothing. *)
Theorem removeServer_spec name w :
  (∀ server, registry w !! name = Some server →
     ∃ w', removeServer name w = (Returned true, w')
       ∧ registry w' !! name = None
       ∧ (∀ other, other ≠ name → registry w' !! other = registry w !! other)
       ∧ trace w' = trace w ++ [Update (registry w')]
       ∧ remote w' = remote w)
  ∧ (registry w !! name = None → name ∈ inherited →
     ∃ w', removeServer name w = (Returned true, w')
       ∧ registry w' = registry w
       ∧ trace w' = trace w ++ [Update (registry w)]
       ∧ remote w' = remote w)
  ∧ (registry w !! name = None → name ∉ inherited →
     removeServer name w = (Returned false, w)).
Proof.
  split; [|split].
  - intros server Hs. eexists. unfold removeServer. simp. rewrite Hs.
    split; [reflexivity|]. rewrite registry_update. cbn.
    split; [apply lookup_delete_eq|].
    split; [|done]. intros other Hne. by rewrite lookup_delete_ne.
  - intros Hs Hname. eexists. unfold removeServer. simp.
    rewrite Hs, (bool_decide_eq_true_2 _ Hname).
    split; [reflexivity|]. rewrite registry_update. cbn.
    by rewrite (delete_id _ _ Hs).
  - intros Hs Hname. unfold removeServer. simp.
    by rewrite Hs, (bool_decide_eq_false_2 _ Hname).
Qed.

(** X12. Adding a server under a new name (one that is not inherited from
    [Object.prototype]) and removing it again gives back the registry there
    was. *)
Theorem addServer_removeServer name url w :
  registry w !! name = None →
  name ∉ inherited →
  ∃ w1 w2, addServer name url w = (Returned true, w1)
    ∧ removeServer name w1 = (Returned true, w2)
    ∧ registry w2 = registry w.
Proof.
  intros Hnew Hname. do 2 eexists. split.
  { unfold addServer. simp. rewrite Hnew, (bool_decide_eq_false_2 _ Hname).
    simp. reflexivity. }
  unfold removeServer. simp. rewrite registry_update, lookup_insert_eq. simp.
  split; [reflexivity|]. rewrite registry_written. by apply delete_insert_id.
Qed.


(** X14. The fallback listing is tried only after a reply that is not of
    type [success]: when the primary listing reports success but carries no
    projects, [fetchServerProjects] makes no second call, returns the empty
    sequence, leaves store and cached projects as they were and shows the
    primary reply's message if it has one. *)
Theorem fetchServerProjects_success_without_projects api name w server login
    res (rem : Remote) :
  registry w !! name = Some server →
  s_login server = Some login →
  api (getProjectsJson (l_identity login)) (remote w) = (res, rem) →
  r_type res = "success" →
  r_projects res = None →
  fetchServerProjects api name w
  = (Returned [],
     {| globalState := globalState w; remote := rem;
        trace := trace w ++ Call (getProjectsJson (l_identity login))
                 :: (ShowErrorMessage <$> option_list (r_message res)) |}).
Proof.
  intros Hs Hl Hapi Hty Hps. unfold fetchServerProjects. simp. rewrite Hs. simp.
  rewrite Hl. simp. rewrite Hapi, (isSuccess_true _ Hty). simp.
  rewrite (isSuccess_true _ Hty), Hps.
  destruct (r_message res); simp; cbn; by rewrite <- ?app_assoc.
Qed.

(** X15. [uploadProjectFile] and [addProjectFolder] on a logged-in entry
    make their one remote call with the stored identity and never write the
    store.  They return the reply's entity exactly when the reply is of type
    [success] and has one; in every other case (a [success] reply without
    entity included) they return [undefined] and show the reply's message if
    there is one. *)
Theorem entity_creation_logged_in api name w server login
    (projectId parentFolderId fileName folderName : string) (content : list byte)
    (c : ApiCall) (method : Async (option Entity)) res (rem : Remote) :
  registry w !! name = Some server →
  s_login server = Some login →
  (c = uploadFile (l_identity login) projectId parentFolderId fileName content
   ∧ method = uploadProjectFile api name projectId parentFolderId fileName content)
  ∨ (c = addFolder (l_identity login) projectId folderName parentFolderId
     ∧ method = addProjectFolder api name projectId folderName parentFolderId) →
  api c (remote w) = (res, rem) →
  ∃ result w', method w = (Returned result, w')
    ∧ (∀ entity, result = Some entity
                 ↔ r_type res = "success" ∧ r_entity res = Some entity)
    ∧ calls (trace w') = calls (trace w) ++ [c]
    ∧ shown (trace w')
      = shown (trace w)
        ++ match result with Some _ => [] | None => option_list (r_message res) end
    ∧ globalState w' = globalState w
    ∧ writes (trace w') = writes (trace w)
    ∧ remote w' = rem.
Proof.
  intros Hs Hl Hrun Hapi.
  assert (method w = (if isSuccess res
                   then match r_entity res with
                        | Some entity => ret (Some entity)
                        | None => showMessageOf res;; ret None
                        end
                   else (showMessageOf res;; ret None))
                    {| globalState := globalState w; remote := rem;
                       trace := trace w ++ [Call c] |}) as ->.
  { destruct Hrun as [[-> ->] | [-> ->]];
      unfold uploadProjectFile, addProjectFolder; simp; rewrite Hs; simp;
      rewrite Hl; simp; rewrite Hapi; by destruct (isSuccess res). }
  unfold isSuccess.
  destruct (decide (r_type res = "success")) as [Hty|Hty];
    [rewrite (bool_decide_eq_true_2 _ Hty) | rewrite (bool_decide_eq_false_2 _ Hty)];
    [destruct (r_entity res) as [entity|] eqn:He|];
    simp; try destruct (r_message res) as [msg|]; simp;
    do 2 eexists; (split; [reflexivity|]); cbn [globalState remote trace];
    traces; (split; [|done]);
    intros entity'; split; try done; try (intros [? ?]; congruence).
Qed.

(** X16. [deleteProjectEntity], [renameProjectEntity] and [moveProjectEntity]
    on a logged-in entry make their one remote call with the stored identity,
    never write the store, and return true exactly when the reply is of type
    [success]; otherwise the reply's message is shown if there is one. *)
Theorem entity_change_logged_in api name w server login
    (projectId fileId entityType entityId newName newParentId : string)
    (fileType : FileType) (c : ApiCall) (method : Async bool) res (rem : Remote) :
  registry w !! name = Some server →
  s_login server = Some login →
  (c = deleteEntity (l_identity login) projectId fileType fileId
   ∧ method = deleteProjectEntity api name projectId fileType fileId)
  ∨ (c = renameEntity (l_identity login) projectId entityType entityId newName
     ∧ method = renameProjectEntity api name projectId entityType entityId newName)
  ∨ (c = moveEntity (l_identity login) projectId entityType entityId newParentId
     ∧ method = moveProjectEntity api name projectId entityType entityId newParentId) →
  api c (remote w) = (res, rem) →
  ∃ ok w', method w = (Returned ok, w')
    ∧ (ok = true ↔ r_type res = "success")
    ∧ calls (trace w') = calls (trace w) ++ [c]
    ∧ shown (trace w')
      = shown (trace w) ++ (if ok then [] else option_list (r_message res))
    ∧ globalState w' = globalState w
    ∧ writes (trace w') = writes (trace w)
    ∧ remote w' = rem.
Proof.
  intros Hs Hl Hrun Hapi.
  assert (method w = (if isSuccess res then ret true
                   else (showMessageOf res;; ret false))
                    {| globalState := globalState w; remote := rem;
                       trace := trace w ++ [Call c] |}) as ->.
  { destruct Hrun as [[-> ->] | [[-> ->] | [-> ->]]];
      unfold deleteProjectEntity, renameProjectEntity, moveProjectEntity;
      simp; rewrite Hs; simp; rewrite Hl; simp; rewrite Hapi;
      by destruct (isSuccess res). }
  unfold isSuccess.
  destruct (decide (r_type res = "success")) as [Hty|Hty];
    [rewrite (bool_decide_eq_true_2 _ Hty) | rewrite (bool_decide_eq_false_2 _ Hty)];
    simp; try destruct (r_message res) as [msg|]; simp;
    do 2 eexists; (split; [reflexivity|]); cbn [globalState remote trace];
    traces; (split; [|done]); split; done.
Qed.


(** X18. The sync bridge on a logged-in entry: one proxy call with the
    stored identity and no write; on a reply of type [success] the mapped
    position of the reply is returned, otherwise [undefined] is returned and
    the reply's message shown if there is one. *)
Theorem sync_logged_in api name w server login (projectId filePath : string)
    (line column page h v : Number) :
  registry w !! name = Some server →
  s_login server = Some login →
  let after c res (rem : Remote) :=
    {| globalState := globalState w; remote := rem;
       trace := trace w ++ Call c
                :: (if isSuccess res then []
                    else ShowErrorMessage <$> option_list (r_message res)) |} in
  (∀ res rem,
     let c := proxySyncCode (l_identity login) projectId filePath line column in
     api c (remote w) = (res, rem) →
     syncCode api name projectId filePath line column w
     = (Returned (if isSuccess res then r_syncCode res else None), after c res rem))
  ∧ (∀ res rem,
     let c := proxySyncPdf (l_identity login) projectId page h v in
     api c (remote w) = (res, rem) →
     syncPdf api name projectId page h v w
     = (Returned (if isSuccess res then r_syncPdf res else None), after c res rem)).
Proof.
  intros Hs Hl after. subst after.
  split; intros res rem c Hapi; subst c;
    unfold syncCode, syncPdf, authenticate; simp; rewrite Hs; simp;
    rewrite Hl; simp; rewrite Hapi;
    destruct (isSuccess res); simp; try done;
    destruct (r_message res); simp; cbn; by rewrite <- ?app_assoc.
Qed.


(** X20. [getServers] changes nothing and lists the registry: as many pairs
    as there are entries (none for a store without registry), each registered
    entry paired with a client handle on its url, and nothing else. *)
Theorem getServers_spec w :
  ∃ listed, getServers w = (Returned listed, w)
    ∧ length listed = size (registry w)
    ∧ ∀ server handle,
        (server, handle) ∈ listed
        ↔ (∃ name, registry w !! name = Some server)
          ∧ handle = {| base_url := s_url server |}.
Proof.
  eexists. unfold getServers. simp. split; [reflexivity|]. split.
  - by rewrite !length_fmap, length_map_to_list.
  - intros server handle. rewrite list_elem_of_fmap. split.
    + intros (persist & [= -> ->] & Hin). split; [|done].
      apply list_elem_of_fmap in Hin as ([name persist'] & -> & Hin).
      exists name. by apply elem_of_map_to_list.
    + intros [[name Hs] ->]. exists server. split; [done|].
      apply list_elem_of_fmap. exists (name, server). split; [done|].
      by apply elem_of_map_to_list.
Qed.



End Coverage.

(** * The further properties on the concrete instance *)

(** [other_keys_untouched]: the errands write the registry five times and
    leave what the store holds under another key. *)
Lemma other_keys_untouched_witness :
  "recent-servers" ≠ keyServerPersists
  ∧ globalState (performAll errands shared) !! "recent-servers"
    = Some {[ "lab" := lab ]}
  ∧ length (writes (trace (performAll errands shared))) = 5.
Proof.
  assert ("recent-servers" ≠ keyServerPersists) as Hkey by discriminate.
  exact (conj Hkey
           (conj (other_keys_untouched errands shared "recent-servers" Hkey)
                 eq_refl)).
Defined.

(** [reading_requests_keep_store] for a rename the remote refuses. *)
Lemma reading_requests_keep_store_witness :
  updating (RenameProjectEntity failing "lab" "p1" "doc" "f1" "intro.tex") = false
  ∧ globalState (perform (RenameProjectEntity failing "lab" "p1" "doc" "f1" "intro.tex")
                         inside)
    = globalState inside
  ∧ writes (trace (perform (RenameProjectEntity failing "lab" "p1" "doc" "f1" "intro.tex")
                           inside))
    = writes (trace inside).
Proof.
  exact (conj eq_refl
           (reading_requests_keep_store
              (RenameProjectEntity failing "lab" "p1" "doc" "f1" "intro.tex")
              inside eq_refl)).
Defined.


(** [calls_carry_stored_identity] for a compilation with cache clearing. *)
Lemma calls_carry_stored_identity_witness :
  (target (CompileProjectEntity flaky "lab" "p1" true) = Some "lab"
   ∧ sessionOf inside "lab" = Some session)
  ∧ ∃ made,
      calls (trace (perform (CompileProjectEntity flaky "lab" "p1" true) inside))
      = calls (trace inside) ++ made
      ∧ Forall (λ c, identityOf c = Some "jar") made
      ∧ length made ≤ 2.
Proof.
  exact (conj (conj eq_refl eq_refl)
           (calls_carry_stored_identity (CompileProjectEntity flaky "lab" "p1" true)
              inside "lab" session eq_refl eq_refl)).
Defined.

(** [other_entries_untouched]: logging out of the lab leaves the office. *)
Lemma other_entries_untouched_witness :
  (target (LogoutServer failing "lab") = Some "lab" ∧ "office" ≠ "lab")
  ∧ registry (perform (LogoutServer failing "lab") campus) !! "office" = Some office.
Proof.
  assert ("office" ≠ "lab") as Hne by discriminate.
  exact (conj (conj eq_refl Hne)
           (other_entries_untouched (LogoutServer failing "lab") campus
              "lab" "office" eq_refl Hne)).
Defined.

(** [registered_names_fixed] for a granted login, which writes the
    registry. *)
Lemma registered_names_fixed_witness :
  dom (registry (perform (LoginServer helpful "lab" byEmail) town))
  = dom (registry town)
  ∧ sessionOf town "lab" = None
  ∧ sessionOf (perform (LoginServer helpful "lab" byEmail) town) "lab"
    = Some {| l_userId := "u1"; l_username := Some "a@lab.example";
              l_identity := "jar"; l_projects := None |}
  ∧ length (writes (trace (perform (LoginServer helpful "lab" byEmail) town))) = 1.
Proof.
  split; [|repeat split; reflexivity].
  apply (registered_names_fixed (LoginServer helpful "lab" byEmail) town);
    intros; discriminate.
Defined.

(** [entries_keep_name_and_url] for a login. *)
Lemma entries_keep_name_and_url_witness :
  (registry out !! "lab" = Some lab
   ∧ registry (perform (LoginServer helpful "lab" byEmail) out) !! "lab"
     = Some {| s_name := "lab"; s_url := "https://lab.example";
               s_login := Some {| l_userId := "u1";
                                  l_username := Some "a@lab.example";
                                  l_identity := "jar"; l_projects := None |} |})
  ∧ "lab" = s_name lab ∧ "https://lab.example" = s_url lab.
Proof.
  exact (conj (conj eq_refl eq_refl)
           (entries_keep_name_and_url (LoginServer helpful "lab" byEmail) out "lab"
              lab _ eq_refl eq_refl)).
Defined.

(** [wellKeyed_invariant] through the errands, from two entries to three. *)
Lemma wellKeyed_invariant_witness :
  wellKeyed (registry shared)
  ∧ wellKeyed (registry (performAll errands shared))
  ∧ registry (performAll errands shared) = afterErrands.
Proof.
  assert (wellKeyed (registry shared)) as Hinv.
  { change (registry shared)
      with (<["lab" := labIn]> (<["office" := office]> (∅ : gmap string ServerPersist))).
    apply map_Forall_insert_2; [reflexivity|].
    apply map_Forall_insert_2; [reflexivity|]. apply map_Forall_empty. }
  exact (conj Hinv (conj (wellKeyed_invariant errands shared Hinv) eq_refl)).
Defined.

(** [cachesStamped_invariant] through the errands: the cached project [p0]
    is stamped to begin with, the two fetched ones are at the end. *)
Lemma cachesStamped_invariant_witness :
  cachesStamped (registry shared)
  ∧ cachesStamped (registry (performAll errands shared))
  ∧ registry (performAll errands shared) = afterErrands.
Proof.
  assert (cachesStamped (registry shared)) as Hinv.
  { change (registry shared)
      with (<["lab" := labIn]> (<["office" := office]> (∅ : gmap string ServerPersist))).
    apply map_Forall_insert_2.
    { intros login [= <-] projects [= <-]. by repeat constructor. }
    apply map_Forall_insert_2; [by intros login|]. apply map_Forall_empty. }
  exact (conj Hinv (conj (cachesStamped_invariant errands shared Hinv) eq_refl)).
Defined.

(** [removeServer_spec]: a logged-in entry is removed without a remote
    logout; under an inherited name the registry is written back as it was;
    an unknown name is refused. *)
Lemma removeServer_spec_witness :
  (registry inside !! "lab" = Some labIn
   ∧ ∃ w', removeServer "lab" inside = (Returned true, w')
       ∧ registry w' !! "lab" = None
       ∧ (∀ other, other ≠ "lab" → registry w' !! other = registry inside !! other)
       ∧ trace w' = trace inside ++ [Update (registry w')]
       ∧ remote w' = remote inside)
  ∧ ((registry inside !! "toString" = None ∧ "toString" ∈ inherited)
     ∧ ∃ w', removeServer "toString" inside = (Returned true, w')
         ∧ registry w' = registry inside
         ∧ trace w' = trace inside ++ [Update (registry inside)]
         ∧ remote w' = remote inside)
  ∧ ((registry inside !! "office" = None ∧ "office" ∉ inherited)
     ∧ removeServer "office" inside = (Returned false, inside)).
Proof.
  destruct (removeServer_spec "lab" inside) as (Hin & _ & _).
  destruct (removeServer_spec "toString" inside) as (_ & Hproto & _).
  destruct (removeServer_spec "office" inside) as (_ & _ & Hout).
  assert ("toString" ∈ inherited) as Hname by compute_done.
  assert ("office" ∉ inherited) as Hother by compute_done.
  exact (conj (conj eq_refl (Hin labIn eq_refl))
           (conj (conj (conj eq_refl Hname) (Hproto eq_refl Hname))
                 (conj (conj eq_refl Hother) (Hout eq_refl Hother)))).
Defined.

(** [addServer_removeServer] for a second server. *)
Lemma addServer_removeServer_witness :
  (registry inside !! "office" = None ∧ "office" ∉ inherited)
  ∧ ∃ w1 w2, addServer "office" "https://office.example" inside = (Returned true, w1)
      ∧ removeServer "office" w1 = (Returned true, w2)
      ∧ registry w2 = registry inside.
Proof.
  assert ("office" ∉ inherited) as Hname by compute_done.
  exact (conj (conj eq_refl Hname)
           (addServer_removeServer "office" "https://office.example" inside
              eq_refl Hname)).
Defined.


(** [fetchServerProjects_success_without_projects] on the remote that
    answers [success] and nothing else: the cached project [p0] stays. *)
Lemma fetchServerProjects_success_without_projects_witness :
  (registry inside !! "lab" = Some labIn
   ∧ s_login labIn = Some session
   ∧ laconic (getProjectsJson "jar") (remote inside) = (reply "success" None, 1)
   ∧ r_type (reply "success" None) = "success"
   ∧ r_projects (reply "success" None) = None)
  ∧ fetchServerProjects laconic "lab" inside
    = (Returned [],
       {| globalState := globalState inside; remote := 1;
          trace := [Call (getProjectsJson "jar")] |}).
Proof.
  exact (conj (conj eq_refl (conj eq_refl (conj eq_refl (conj eq_refl eq_refl))))
           (fetchServerProjects_success_without_projects laconic "lab" inside
              labIn session (reply "success" None) 1
              eq_refl eq_refl eq_refl eq_refl eq_refl)).
Defined.

(** [entity_creation_logged_in] for an upload that succeeds. *)
Lemma entity_creation_logged_in_witness :
  (registry inside !! "lab" = Some labIn
   ∧ s_login labIn = Some session
   ∧ helpful (uploadFile "jar" "p1" "root" "main.tex" [x25]) (remote inside) = (full, 1))
  ∧ ∃ result w',
      uploadProjectFile helpful "lab" "p1" "root" "main.tex" [x25] inside
      = (Returned result, w')
      ∧ (∀ entity, result = Some entity
                   ↔ r_type full = "success" ∧ r_entity full = Some entity)
      ∧ calls (trace w')
        = calls (trace inside) ++ [uploadFile "jar" "p1" "root" "main.tex" [x25]]
      ∧ shown (trace w')
        = shown (trace inside)
          ++ match result with Some _ => [] | None => option_list (r_message full) end
      ∧ globalState w' = globalState inside
      ∧ writes (trace w') = writes (trace inside)
      ∧ remote w' = 1.
Proof.
  exact (conj (conj eq_refl (conj eq_refl eq_refl))
           (entity_creation_logged_in helpful "lab" inside labIn session
              "p1" "root" "main.tex" "figures" [x25]
              (uploadFile "jar" "p1" "root" "main.tex" [x25])
              (uploadProjectFile helpful "lab" "p1" "root" "main.tex" [x25])
              full 1 eq_refl eq_refl (or_introl (conj eq_refl eq_refl)) eq_refl)).
Defined.

(** [entity_change_logged_in] for a deletion the remote refuses. *)
Lemma entity_change_logged_in_witness :
  (registry inside !! "lab" = Some labIn
   ∧ s_login labIn = Some session
   ∧ failing (deleteEntity "jar" "p1" "doc" "f1") (remote inside)
     = (reply "error" (Some "no"), 1))
  ∧ ∃ ok w',
      deleteProjectEntity failing "lab" "p1" "doc" "f1" inside = (Returned ok, w')
      ∧ (ok = true ↔ r_type (reply "error" (Some "no")) = "success")
      ∧ calls (trace w') = calls (trace inside) ++ [deleteEntity "jar" "p1" "doc" "f1"]
      ∧ shown (trace w')
        = shown (trace inside)
          ++ (if ok then [] else option_list (r_message (reply "error" (Some "no"))))
      ∧ globalState w' = globalState inside
      ∧ writes (trace w') = writes (trace inside)
      ∧ remote w' = 1.
Proof.
  exact (conj (conj eq_refl (conj eq_refl eq_refl))
           (entity_change_logged_in failing "lab" inside labIn session
              "p1" "f1" "doc" "f1" "intro.tex" "figures" "doc"
              (deleteEntity "jar" "p1" "doc" "f1")
              (deleteProjectEntity failing "lab" "p1" "doc" "f1")
              (reply "error" (Some "no")) 1 eq_refl eq_refl
              (or_introl (conj eq_refl eq_refl)) eq_refl)).
Defined.


(** [sync_logged_in] on the logged-in entry. *)
Lemma sync_logged_in_witness :
  (registry inside !! "lab" = Some labIn ∧ s_login labIn = Some session)
  ∧ syncCode helpful "lab" "p1" "main.tex" 3 1 inside
    = (Returned (Some "page 1"),
       {| globalState := globalState inside; remote := 1;
          trace := [Call (proxySyncCode "jar" "p1" "main.tex" 3 1)] |})
  ∧ syncPdf failing "lab" "p1" 1 10 20 inside
    = (Returned None,
       {| globalState := globalState inside; remote := 1;
          trace := [Call (proxySyncPdf "jar" "p1" 1 10 20); ShowErrorMessage "no"] |}).
Proof.
  destruct (sync_logged_in helpful "lab" inside labIn session "p1" "main.tex"
              3 1 1 10 20 eq_refl eq_refl) as [Hcode _].
  destruct (sync_logged_in failing "lab" inside labIn session "p1" "main.tex"
              3 1 1 10 20 eq_refl eq_refl) as [_ Hpdf].
  exact (conj (conj eq_refl eq_refl)
           (conj (Hcode full 1 eq_refl) (Hpdf (reply "error" (Some "no")) 1 eq_refl))).
Defined.




(** The story end to end: five writes, the last of an empty registry, and the
    calls in the order they were made. *)
Example story_runs :
  registry (performAll story fresh) = ∅
  ∧ length (writes (trace (performAll story fresh))) = 5
  ∧ calls (trace (performAll story fresh))
    = [passportLogin (Some "a@lab.example") (Some "secret");
       getProjectsJson "jar"; userProjectsJson "jar";
       deleteAuxFiles "jar" "p1"; compile "jar" "p1";
       getFile "jar" "p1" "f1"; logout "jar"].
Proof. vm_compute. repeat split. Qed.
